(** * GrowthMatch content generator: request pipeline and schemas

    A shallow embedding of [src/app.py] and [src/config/setting.py].

    - Python [str] is [string], one [ascii] per character; the three
      characters the sanitizing loops remove are ASCII.
    - The request body ([request.json]) is a JSON object with string
      values, kept as the list of its items in iteration order; the
      dictionary [sanitized_data] the generators build from it is a
      [gmap string string].
    - The pydantic models are records together with the [Field]
      declarations of the source and the validation those declarations
      stand for.
    - The instructor-patched OpenAI client is third-party code: it is a
      parameter of the development.  Every request handed to it is
      appended to a log, the only effect of the program. *)

From stdpp Require Import gmap strings list fin_maps.
From Stdlib Require Import Ascii ZArith.
From Stdlib Require QArith_base.

(** ** Strings *)

Definition apostrophe : ascii := "'"%char.
Definition double_quote : ascii := "034"%char.
Definition backtick : ascii := "`"%char.

(** [s.replace(old, new)] for a one-character [old]. *)
Fixpoint replace (s : string) (old : ascii) (new : string) : string :=
  match s with
  | EmptyString => EmptyString
  | String c s' =>
      if decide (c = old) then new +:+ replace s' old new
      else String c (replace s' old new)
  end.

(** [c in s] for a one-character [c]. *)
Fixpoint occurs (c : ascii) (s : string) : bool :=
  match s with
  | EmptyString => false
  | String c' s' => bool_decide (c' = c) || occurs c s'
  end.

(** [sep * n] *)
Fixpoint str_repeat (sep : string) (n : nat) : string :=
  match n with
  | O => EmptyString
  | S n' => sep +:+ str_repeat sep n'
  end.

(** ** Dictionaries *)

(** [d.get(key, default)] *)
Definition get {V} (d : gmap string V) (key : string) (default_ : V) : V :=
  match d !! key with
  | Some v => v
  | None => default_
  end.

(** [key in d] for the request body, a dictionary given by its items. *)
Definition contains (d : list (string * string)) (key : string) : bool :=
  bool_decide (key ∈ d.*1).

(** ** Key sanitization (app.py, lines 152-156 and 243-247) *)

(** The loop
[[
    sanitized_data = {}
    for key, value in request_data.items():
        new_key = ...
        sanitized_data[new_key] = value
]]
    with the computation of [new_key] as a parameter. *)
Definition sanitize_loop (new_key : string → string)
    (request_data : list (string * string)) : gmap string string :=
  foldl (λ sanitized_data kv, <[new_key kv.1 := kv.2]> sanitized_data)
        ∅ request_data.

(** [new_key] in PostGenerator: two chained [replace] calls delete the
    apostrophe and the double quote from the key. *)
Definition PostGenerator_new_key (key : string) : string :=
  replace (replace key apostrophe "") double_quote "".

(** [new_key] in BlogPostGenerator: a third [replace] also deletes the
    backtick. *)
Definition BlogPostGenerator_new_key (key : string) : string :=
  replace (replace (replace key apostrophe "") double_quote "") backtick "".

Definition PostGenerator_sanitize := sanitize_loop PostGenerator_new_key.
Definition BlogPostGenerator_sanitize := sanitize_loop BlogPostGenerator_new_key.


(** ** Content schemas (app.py, lines 48-149) *)

(** A pydantic [Field(...)] declaration: the bounds it sets and its
    description.  [min_length]/[max_length] bound the length of a string,
    [min_items]/[max_items] the number of items of a list; the description
    is text handed to the model and takes no part in validation. *)
Record FieldInfo := Field {
  min_length : option nat;
  max_length : option nat;
  min_items : option nat;
  max_items : option nat;
  description : string
}.

Definition at_least (bound : option nat) (n : nat) : bool :=
  match bound with
  | Some m => m <=? n
  | None => true
  end.

Definition at_most (bound : option nat) (n : nat) : bool :=
  match bound with
  | Some m => n <=? m
  | None => true
  end.

Definition validate_str (f : FieldInfo) (s : string) : bool :=
  at_least (min_length f) (String.length s)
  && at_most (max_length f) (String.length s).

Definition validate_list (f : FieldInfo) (l : list string) : bool :=
  at_least (min_items f) (length l) && at_most (max_items f) (length l).

Module SocialMediaPost.

Record t := {
  title : string;
  body : string;
  hashtags : list string
}.

Definition title_field : FieldInfo :=
  Field None (Some 70) None None
"CONCISE TITLE (70 CHARACTER MAX). MUST USE SENTENCE CASE. First word capitalized, rest lowercase except proper nouns/acronyms. BAD EXAMPLE: 'Adapting to Evolving B2B Buyer Behavior' GOOD EXAMPLE: 'Adapting to evolving B2B buyer behavior'".

Definition body_field : FieldInfo :=
  Field (Some 500) (Some 2100) None None
"STRUCTURED CONTENT (100-350 WORDS):
1. [HOOK] <150 characters on first line
2. [BODY] Concise paragraphs <200 characters each
3. [CONCLUSION] Strong ending <200 characters
FORMAT:
Hook text here

Paragraph 1

Paragraph 2

Final conclusion/question".

Definition hashtags_field : FieldInfo :=
  Field None None (Some 3) (Some 3)
"EXACTLY 3 HASHTAGS:
1. #broad_subject (common)
2. #specific_term (from transcript)
3. #CustomTerm (unique blend)".

(** What validating an instance against the three declarations checks. *)
Definition validate (p : t) : bool :=
  validate_str title_field (title p)
  && validate_str body_field (body p)
  && validate_list hashtags_field (hashtags p).

End SocialMediaPost.

Module BlogPost.

Record t := {
  title : string;
  contentBody : string;
  hashtags : list string
}.

Definition title_field : FieldInfo :=
  Field None (Some 120) None None
"CATCHY, SEO-OPTIMIZED TITLE (120 CHARACTER MAX). Must include primary keyword naturally. Use title case formatting.".

Definition contentBody_field : FieldInfo :=
  Field (Some 2800) (Some 4000) None None
"STRUCTURED MARKDOWN CONTENT:
1. SEO SECTION (frontmatter):
   - Focus Keyword: [primary keyword]
   - Meta Title: [60 character max]
   - Meta Description: [160 character max]
   - URL: [slug suggestion]
2. CONTENT BODY:
   - H1 Headline
   - Minimum 3 H2 sections
   - Use H3s where appropriate
   - Include 1-2 lists
   - Conclusion with summary
FORMAT:
---
Focus Keyword: ...
Meta Title: ...
Meta Description: ...
URL: ...
---

# Main Headline

## Section 1

Content...

## Section 2

- List item
- List item

### Subsection

Content...

## Conclusion

Final summary...".

Definition hashtags_field : FieldInfo :=
  Field None None (Some 3) (Some 5)
"3-5 HASHTAGS FOR SOCIAL SHARING:
Mix of industry topics and specific terms".

(** What validating an instance against the three declarations checks. *)
Definition validate (p : t) : bool :=
  validate_str title_field (title p)
  && validate_str contentBody_field (contentBody p)
  && validate_list hashtags_field (hashtags p).

End BlogPost.

(** ** Prompt templates (app.py, lines 158-225 and 249-315)

    The four f-strings, literal text and interpolated lookups in source
    order. *)

Definition PostGenerator_system_content (sanitized_data : gmap string string) : string :=
  "
        You are an expert senior copywriter and social media marketer who helps business leaders and subject matter experts convert their spoken words into polished, 
        clear and articulate text content. Your core function is to turn AI transcripts from recorded calls into social media marketing posts that establish the writer 
        as a thought leader in their space, educate customers and prospects, and/or market the company the leader or subject matter expert works for.
     
        <Context>
            Please review the various pieces of context below on the creator, their company, their brand, their social post style guide, and more.

            <company_name>
            Company Name: "
  +:+ get sanitized_data "6.Name" ""
  +:+ "
            </company_name>

            <company_description>
            Company Description: "
  +:+ get sanitized_data "6.Company Description" ""
  +:+ "
            </company_description>

            <creator_name>
            Creator Name: "
  +:+ get sanitized_data "11.Full Name" ""
  +:+ "
            </creator_name>

            Please read the bio below of the creator who will be seen as the author of this social post. This creator is also the person who recorded what is in the AI transcript.

            <creator_bio>
            Creator Bio: "
  +:+ get sanitized_data "11.Bio" ""
  +:+ "
            </creator_bio>

            <optional_context>
            The items below may or may not have values. If they're empty just ignore them when creating the social post text.

            Brand Values: "
  +:+ get sanitized_data "7.Brand Values" ""
  +:+ "
            Brand Personalities: "
  +:+ get sanitized_data "7.Brand Personalities" ""
  +:+ "
            Tone of Voice Principles: "
  +:+ get sanitized_data "7.Tone of Voice Principles" ""
  +:+ "
            Language Dos: "
  +:+ get sanitized_data "7.Language Dos" ""
  +:+ "
            Language Donts: "
  +:+ get sanitized_data "7.Language Donts" ""
  +:+ "
            Audience Adapatations: "
  +:+ get sanitized_data "7.Audience Adaptations" ""
  +:+ "
            On Brand Examples: "
  +:+ get sanitized_data "7.On Brand Examples" ""
  +:+ "
            Off Brand Examples: "
  +:+ get sanitized_data "7.Off Brand (Bad) Examples" ""
  +:+ "
            Narrative Style: "
  +:+ get sanitized_data "7.Narrative and Storytelling Style" ""
  +:+ "
            Key Messages: "
  +:+ get sanitized_data "7.Key Messages" ""
  +:+ "
            Social Post Style Guide: "
  +:+ get sanitized_data "7.Social Post Writing Style Guide" ""
  +:+ "
            Audience Information: "
  +:+ get sanitized_data "14.array" ""
  +:+ "
            Solutions Information: "
  +:+ get sanitized_data "13.array" ""
  +:+ "
            </optional_context>
            </context>
            
            <examples>
            <example1>
            "
  +:+ get sanitized_data "11.Social Post Sample 1" ""
  +:+ "
            </example1>
            <example2>
            "
  +:+ get sanitized_data "11.Social Post Sample 2" ""
  +:+ "
            </example2>
            <example3>
            "
  +:+ get sanitized_data "11.Social Post Sample 3" ""
  +:+ "
            </example3>
            </examples>
    ".

Definition PostGenerator_user_content (sanitized_data : gmap string string) : string :=
  "
        Please write a social media post using your system instructions and given the AI transcript and topic below:

        <ai_transcript>
        AI Transcript: "
  +:+ get sanitized_data "2.AI Transcript Rough" ""
  +:+ "
        </ai_transcript>
        <topic>
        Topic Name: "
  +:+ get sanitized_data "12.Topic Name" ""
  +:+ "
        </topic>
    ".

Definition BlogPostGenerator_system_content (sanitized_data : gmap string string) : string :=
  "
        You are an expert content strategist and SEO specialist who helps convert spoken-word transcripts into 
        professional, optimized blog posts. Your goal is to create long-form content that ranks well in search engines
        while maintaining natural readability and thought leadership.

        <Context>
            <company_name>
            Company Name: "
  +:+ get sanitized_data "6.Name" ""
  +:+ "
            </company_name>

            <company_description>
            Company Description: "
  +:+ get sanitized_data "6.Company Description" ""
  +:+ "
            </company_description>

            <creator_name>
            Creator Name: "
  +:+ get sanitized_data "11.Full Name" ""
  +:+ "
            </creator_name>

            <creator_bio>
            Creator Bio: "
  +:+ get sanitized_data "11.Bio" ""
  +:+ "
            </creator_bio>

            <style_guide>
            Long Form Style Guide: "
  +:+ get sanitized_data "7.Long Form Writing Style Guide" ""
  +:+ "
            </style_guide>

            <optional_context>
            Brand Values: "
  +:+ get sanitized_data "7.Brand Values" ""
  +:+ "
            Tone Guidelines: "
  +:+ get sanitized_data "7.Tone of Voice Principles" ""
  +:+ "
            Audience: "
  +:+ get sanitized_data "14.array" ""
  +:+ "
            Solutions: "
  +:+ get sanitized_data "13.array" ""
  +:+ "
            </optional_context>
        </context>

        <examples>
        <example1>
        "
  +:+ get sanitized_data "11.Long Form Text Sample 1" ""
  +:+ "
        </example1>
        <example2>
        "
  +:+ get sanitized_data "11.Long Form Text Sample 2" ""
  +:+ "
        </example2>
        <example3>
        "
  +:+ get sanitized_data "11.Long Form Text Sample 3" ""
  +:+ "
        </example3>
        </examples>
    ".

Definition BlogPostGenerator_user_content (sanitized_data : gmap string string) : string :=
  "
        Create an SEO-optimized blog post from this transcript and topic:

        <ai_transcript>
        "
  +:+ get sanitized_data "2.AI Transcript Rough" ""
  +:+ "
        </ai_transcript>

        <topic>
        "
  +:+ get sanitized_data "12.Topic Name" ""
  +:+ "
        </topic>

        Follow these structural requirements:
        - Start with SEO frontmatter section
        - Use proper heading hierarchy (H1 > H2 > H3)
        - Include at least one bulleted list
        - Keep paragraphs under 5 lines
        - Use transitional phrases between sections
        - Include natural keyword placement
        - Add 3-5 relevant hashtags at end
    ".

(** The keys the templates of each generator look up, in source order. *)
Definition PostGenerator_keys : list string :=
  [ "6.Name";
    "6.Company Description";
    "11.Full Name";
    "11.Bio";
    "7.Brand Values";
    "7.Brand Personalities";
    "7.Tone of Voice Principles";
    "7.Language Dos";
    "7.Language Donts";
    "7.Audience Adaptations";
    "7.On Brand Examples";
    "7.Off Brand (Bad) Examples";
    "7.Narrative and Storytelling Style";
    "7.Key Messages";
    "7.Social Post Writing Style Guide";
    "14.array";
    "13.array";
    "11.Social Post Sample 1";
    "11.Social Post Sample 2";
    "11.Social Post Sample 3";
    "2.AI Transcript Rough";
    "12.Topic Name" ].

Definition BlogPostGenerator_keys : list string :=
  [ "6.Name";
    "6.Company Description";
    "11.Full Name";
    "11.Bio";
    "7.Long Form Writing Style Guide";
    "7.Brand Values";
    "7.Tone of Voice Principles";
    "14.array";
    "13.array";
    "11.Long Form Text Sample 1";
    "11.Long Form Text Sample 2";
    "11.Long Form Text Sample 3";
    "2.AI Transcript Rough";
    "12.Topic Name" ].

(** ** The structure the field descriptions ask for

    The descriptions above ask the model for a shape of the text (a first
    line under 150 characters for the social body; a frontmatter block and
    at least three H2 sections for the blog body).  The source has no
    validator for any of it; the readings below only serve to state that. *)

Definition newline : ascii := "010"%char.

(** [s.split(newline)] *)
Fixpoint lines (s : string) : list string :=
  match s with
  | EmptyString => [EmptyString]
  | String c s' =>
      if decide (c = newline) then EmptyString :: lines s'
      else match lines s' with
           | [] => [String c EmptyString]
           | l :: ls => String c l :: ls
           end
  end.

Definition first_line (s : string) : string :=
  match lines s with
  | [] => EmptyString
  | l :: _ => l
  end.

(** Number of lines that open an H2 section. *)
Definition h2_sections (s : string) : nat :=
  length (List.filter (String.prefix "## ") (lines s)).

(** The body opens with a frontmatter fence and names the focus keyword. *)
Definition has_frontmatter (s : string) : bool :=
  match lines s with
  | fence :: rest =>
      String.eqb fence "---"
      && existsb (String.prefix "Focus Keyword:") rest
  | [] => false
  end.

(** ** Values, configuration, JSON, exceptions *)

(** Python floats are only passed along, never computed with. *)
Definition float : Type := QArith_base.Q.

Inductive pyval :=
  | PyNone
  | PyInt (n : Z)
  | PyFloat (x : float)
  | PyStr (s : string).

(** config/setting.py: [OpenAISettings] with the fields it inherits from
    [LLMProviderSettings]. *)
Module OpenAISettings.
Record t := {
  temperature : float;
  max_tokens : option Z;
  max_retries : Z;
  api_key : string;
  default_model : string
}.
(** The defaults the two classes declare; the key comes from the
    environment. *)
Definition defaults (OPENAI_API_KEY : string) : t :=
  {| temperature := QArith_base.Qmake 0 1;
     max_tokens := None;
     max_retries := 5;
     api_key := OPENAI_API_KEY;
     default_model := "gpt-4o" |}.
End OpenAISettings.

Module Settings.
Record t := {
  app_name : string;
  openai : OpenAISettings.t
}.
Definition defaults (OPENAI_API_KEY : string) : t :=
  {| app_name := "GenAI Project Template";
     openai := OpenAISettings.defaults OPENAI_API_KEY |}.
End Settings.

Definition pyval_of_option (o : option Z) : pyval :=
  match o with
  | Some n => PyInt n
  | None => PyNone
  end.

Local Unset Elimination Schemes.
Inductive json :=
  | JStr (s : string)
  | JList (items : list json)
  | JObj (members : list (string * json)).
Local Set Elimination Schemes.

(** An exception: its class name and [str(e)]. *)
Record exn := Exception {
  exn_class : string;
  str : string
}.

(** The classes given as [response_model] and their instances. *)
Inductive BaseModel :=
  | SocialMediaPostModel
  | BlogPostModel.

Inductive completion :=
  | Social (p : SocialMediaPost.t)
  | Blog (p : BlogPost.t).

(** [completion] is a validated instance of the class [cls]. *)
Definition conforms (cls : BaseModel) (c : completion) : bool :=
  match cls, c with
  | SocialMediaPostModel, Social p => SocialMediaPost.validate p
  | BlogPostModel, Blog p => BlogPost.validate p
  | _, _ => false
  end.

Record Message := {
  role : string;
  content : string
}.

(** The dictionary [completion_params] of [create_completion]. *)
Module Params.
Record t := {
  model : pyval;
  temperature : pyval;
  max_retries : pyval;
  max_tokens : pyval;
  response_model : BaseModel;
  messages : list Message
}.
End Params.

(** ** Effects

    The one effect is the request sent to the completion client; the
    state is the list of requests sent so far.  A computation returns a
    value or raises an exception.  Console output ([print], [logging]) is
    not modelled. *)

Definition world : Type := list Params.t.

Definition M (A : Type) : Type := world → (exn + A) * world.

Definition ret {A} (a : A) : M A := λ w, (inr a, w).

Definition raise {A} (e : exn) : M A := λ w, (inl e, w).

Definition bind {A B} (c : M A) (k : A → M B) : M B :=
  λ w, match c w with
       | (inr a, w') => k a w'
       | (inl e, w') => (inl e, w')
       end.

(** [try: c except Exception as e: handler e] *)
Definition try_except {A} (c : M A) (handler : exn → M A) : M A :=
  λ w, match c w with
       | (inr a, w') => (inr a, w')
       | (inl e, w') => handler e w'
       end.

Notation "'let*' x := c 'in' k" := (bind c (λ x, k))
  (at level 10, x name, c at level 100, k at level 200).

(** A client as [instructor.from_openai] returns it: what
    [client.chat.completions.create] answers to a request, given the
    requests sent before. *)
Definition Client : Type := Params.t → world → exn + completion.

Definition chat_completions_create (client : Client) (p : Params.t)
    : M completion :=
  λ w, (client p w, w ++ [p]).

(** An HTTP response: the JSON body and the status code. *)
Record Response := {
  body : json;
  status : nat
}.

(** [jsonify(result)], returned alone, answers with status 200. *)
Definition jsonify (j : json) : Response := {| body := j; status := 200 |}.

(** ** Sample data *)

Definition sample_social : SocialMediaPost.t :=
  {| SocialMediaPost.title := "Adapting to evolving B2B buyer behavior";
     SocialMediaPost.body := str_repeat "a" 500;
     SocialMediaPost.hashtags := ["#b2b"; "#buyers"; "#GrowthMatch"] |}.

Definition sample_blog : BlogPost.t :=
  {| BlogPost.title := "Adapting to Evolving B2B Buyer Behavior";
     BlogPost.contentBody := str_repeat "a" 2800;
     BlogPost.hashtags := ["#b2b"; "#buyers"; "#GrowthMatch"] |}.

(** A client that answers every request with a sample instance of the
    class asked for. *)
Definition sample_client : Client :=
  λ p _, match Params.response_model p with
         | SocialMediaPostModel => inr (Social sample_social)
         | BlogPostModel => inr (Blog sample_blog)
         end.

(** A client whose every call fails the way the OpenAI SDK reports a
    rejected key. *)
Definition rejected_key : exn :=
  Exception "AuthenticationError"
    "Error code: 401 - Incorrect API key provided: sk-proj-1234".

Definition failing_client : Client := λ _ _, inl rejected_key.

Definition sample_request : list (string * string) :=
  [("2.AI Transcript Rough", "We discussed Q3 growth.");
   ("12.Topic Name", "Growth")].

(** ** The program (app.py) *)

Section Program.

(** [get_settings()], loaded once from the environment, and
    [instructor.from_openai(OpenAI(api_key=...))]. *)
Variable get_settings : Settings.t.
Variable from_openai : string → Client.

Record LLMFactory := {
  provider : string;
  settings : OpenAISettings.t;
  client : Client
}.

(** [getattr(get_settings(), provider)], over the two fields [Settings]
    declares. *)
Definition getattr_settings (name : string) : M (OpenAISettings.t + string) :=
  if decide (name = "openai") then ret (inl (Settings.openai get_settings))
  else if decide (name = "app_name") then ret (inr (Settings.app_name get_settings))
  else raise (Exception "AttributeError"
                ("'Settings' object has no attribute '" +:+ name +:+ "'")).

(** [_initialize_client]: the table of initializers has the one entry
    openai. *)
Definition initialize_client (provider : string) (settings : OpenAISettings.t)
    : M Client :=
  if decide (provider = "openai") then
    ret (from_openai (OpenAISettings.api_key settings))
  else raise (Exception "ValueError" ("Unsupported LLM provider: " +:+ provider)).

(** [LLMFactory(provider)].  When the attribute is not a provider's
    settings, the name has no initializer either. *)
Definition LLMFactory_init (provider : string) : M LLMFactory :=
  let* attr := getattr_settings provider in
  match attr with
  | inl s =>
      let* c := initialize_client provider s in
      ret {| provider := provider; settings := s; client := c |}
  | inr _ =>
      raise (Exception "ValueError" ("Unsupported LLM provider: " +:+ provider))
  end.

Definition create_completion (self : LLMFactory) (response_model : BaseModel)
    (messages : list Message) (kwargs : gmap string pyval) : M completion :=
  let completion_params :=
    {| Params.model :=
         get kwargs "model" (PyStr (OpenAISettings.default_model (settings self)));
       Params.temperature :=
         get kwargs "temperature" (PyFloat (OpenAISettings.temperature (settings self)));
       Params.max_retries :=
         get kwargs "max_retries" (PyInt (OpenAISettings.max_retries (settings self)));
       Params.max_tokens :=
         get kwargs "max_tokens" (pyval_of_option (OpenAISettings.max_tokens (settings self)));
       Params.response_model := response_model;
       Params.messages := messages |} in
  chat_completions_create (client self) completion_params.

(** Attribute access on the returned object. *)
Definition completion_title (c : completion) : M string :=
  match c with
  | Social p => ret (SocialMediaPost.title p)
  | Blog p => ret (BlogPost.title p)
  end.

Definition completion_hashtags (c : completion) : M (list string) :=
  match c with
  | Social p => ret (SocialMediaPost.hashtags p)
  | Blog p => ret (BlogPost.hashtags p)
  end.

Definition completion_body (c : completion) : M string :=
  match c with
  | Social p => ret (SocialMediaPost.body p)
  | Blog _ =>
      raise (Exception "AttributeError" "'BlogPost' object has no attribute 'body'")
  end.

Definition completion_contentBody (c : completion) : M string :=
  match c with
  | Blog p => ret (BlogPost.contentBody p)
  | Social _ =>
      raise (Exception "AttributeError"
               "'SocialMediaPost' object has no attribute 'contentBody'")
  end.

Definition PostGenerator_messages (request_data : list (string * string))
    : list Message :=
  let sanitized_data := PostGenerator_sanitize request_data in
  [ {| role := "system"; content := PostGenerator_system_content sanitized_data |};
    {| role := "user"; content := PostGenerator_user_content sanitized_data |} ].

Definition PostGenerator (request_data : list (string * string)) : M json :=
  let messages := PostGenerator_messages request_data in
  let* llm := LLMFactory_init "openai" in
  let* completion := create_completion llm SocialMediaPostModel messages ∅ in
  let* title := completion_title completion in
  let* body := completion_body completion in
  let* hashtags := completion_hashtags completion in
  ret (JObj [ ("title", JStr title);
              ("body", JStr body);
              ("hashtags", JList (JStr <$> hashtags)) ]).

Definition BlogPostGenerator_messages (request_data : list (string * string))
    : list Message :=
  let sanitized_data := BlogPostGenerator_sanitize request_data in
  [ {| role := "system"; content := BlogPostGenerator_system_content sanitized_data |};
    {| role := "user"; content := BlogPostGenerator_user_content sanitized_data |} ].

Definition BlogPostGenerator (request_data : list (string * string)) : M json :=
  let messages := BlogPostGenerator_messages request_data in
  let* llm := LLMFactory_init "openai" in
  let* completion := create_completion llm BlogPostModel messages ∅ in
  let* title := completion_title completion in
  let* contentBody := completion_contentBody completion in
  let* hashtags := completion_hashtags completion in
  ret (JObj [ ("title", JStr title);
              ("contentBody", JStr contentBody);
              ("hashtags", JList (JStr <$> hashtags)) ]).

Definition required_fields : list string :=
  ["2.AI Transcript Rough"; "12.Topic Name"].

Definition error_body (message : string) : json :=
  JObj [("error", JStr message)].

(** The validation loop of generate_blog: the response for the first
    required field that is not in the body, if there is one. *)
Fixpoint missing_field (fields : list string)
    (request_json : list (string * string)) : option Response :=
  match fields with
  | [] => None
  | field :: rest =>
      if contains request_json field then missing_field rest request_json
      else Some {| body := error_body ("Missing required field: " +:+ field);
                   status := 400 |}
  end.

Definition generate_blog (request_json : list (string * string)) : M Response :=
  try_except
    (match missing_field required_fields request_json with
     | Some response => ret response
     | None =>
         let* result := BlogPostGenerator request_json in
         ret (jsonify result)
     end)
    (λ e, ret {| body := error_body "Internal server error"; status := 500 |}).

(** The two [print]s of the request come first in the source and have no
    part in the response. *)
Definition generate_post (request_json : list (string * string)) : M Response :=
  try_except
    (let* result := PostGenerator request_json in
     ret (jsonify result))
    (λ e, ret {| body := error_body (str e); status := 500 |}).

(** ** Properties of [replace] *)

Lemma replace_deletes (s : string) (c : ascii) :
  occurs c (replace s c "") = false.
Proof.
  induction s as [|a s IH]; simpl; [done|].
  destruct (decide (a = c)) as [->|Hne]; simpl; [done|].
  rewrite IH. by rewrite bool_decide_eq_false_2.
Qed.

Lemma replace_absent (s : string) (c : ascii) (new : string) :
  occurs c s = false → replace s c new = s.
Proof.
  induction s as [|a s IH]; simpl; [done|].
  intros [Ha Hs]%orb_false_iff.
  apply bool_decide_eq_false in Ha.
  destruct (decide (a = c)); [done|]. by rewrite IH.
Qed.

Lemma replace_keeps_absent (s : string) (c d : ascii) :
  occurs c s = false → occurs c (replace s d "") = false.
Proof.
  induction s as [|a s IH]; simpl; [done|].
  intros [Ha Hs]%orb_false_iff.
  destruct (decide (a = d)); simpl; [by apply IH|].
  rewrite Ha. by apply IH.
Qed.

Lemma PostGenerator_new_key_clean (key : string) :
  occurs apostrophe (PostGenerator_new_key key) = false
  ∧ occurs double_quote (PostGenerator_new_key key) = false.
Proof.
  unfold PostGenerator_new_key. split.
  - apply replace_keeps_absent, replace_deletes.
  - apply replace_deletes.
Qed.

Lemma BlogPostGenerator_new_key_clean (key : string) :
  occurs apostrophe (BlogPostGenerator_new_key key) = false
  ∧ occurs double_quote (BlogPostGenerator_new_key key) = false
  ∧ occurs backtick (BlogPostGenerator_new_key key) = false.
Proof.
  unfold BlogPostGenerator_new_key. split; [|split].
  - do 2 apply replace_keeps_absent. apply replace_deletes.
  - apply replace_keeps_absent, replace_deletes.
  - apply replace_deletes.
Qed.

Lemma PostGenerator_new_key_id (key : string) :
  occurs apostrophe key = false → occurs double_quote key = false →
  PostGenerator_new_key key = key.
Proof.
  intros Ha Hd. unfold PostGenerator_new_key.
  rewrite (replace_absent key apostrophe) by done.
  by apply replace_absent.
Qed.

Lemma BlogPostGenerator_new_key_id (key : string) :
  occurs apostrophe key = false → occurs double_quote key = false →
  occurs backtick key = false →
  BlogPostGenerator_new_key key = key.
Proof.
  intros Ha Hd Hb. unfold BlogPostGenerator_new_key.
  rewrite (replace_absent key apostrophe) by done.
  rewrite (replace_absent key double_quote) by done.
  by apply replace_absent.
Qed.

(** ** Properties of the sanitizing loop *)

Section sanitize_loop.
Variable new_key : string → string.

Lemma sanitize_loop_snoc rd key value :
  sanitize_loop new_key (rd ++ [(key, value)])
  = <[new_key key := value]> (sanitize_loop new_key rd).
Proof. unfold sanitize_loop. by rewrite foldl_snoc. Qed.

(** Every entry of the sanitized dictionary is the value of some item of
    the request, stored as it came, under that item's stripped key. *)
Lemma sanitize_loop_lookup_Some rd key value :
  sanitize_loop new_key rd !! key = Some value →
  ∃ key0, (key0, value) ∈ rd ∧ new_key key0 = key.
Proof.
  induction rd as [|[k v] rd IH] using rev_ind; [done|].
  rewrite sanitize_loop_snoc. intros H.
  apply lookup_insert_Some in H as [[<- <-]|[_ H]].
  - exists k. split; [|done]. apply elem_of_app. right. by apply list_elem_of_singleton.
  - destruct (IH H) as (k0 & Hin & Hk). exists k0. split; [|done].
    apply elem_of_app. by left.
Qed.

Lemma sanitize_loop_is_Some rd key value :
  (key, value) ∈ rd → is_Some (sanitize_loop new_key rd !! new_key key).
Proof.
  induction rd as [|[k v] rd IH] using rev_ind; [by intros ?%elem_of_nil|].
  rewrite sanitize_loop_snoc. intros [Hin|Hin%list_elem_of_singleton]%elem_of_app.
  - apply lookup_insert_is_Some'. right. by apply IH.
  - injection Hin as -> ->. rewrite lookup_insert_eq. by eexists.
Qed.

(** The item processed last among those with the same stripped key wins. *)
Lemma sanitize_loop_last rd key value rest :
  Forall (λ kv, new_key kv.1 ≠ new_key key) rest →
  sanitize_loop new_key (rd ++ (key, value) :: rest) !! new_key key = Some value.
Proof.
  induction rest as [|[k v] rest IH] using rev_ind; intros Hrest.
  - by rewrite sanitize_loop_snoc, lookup_insert_eq.
  - rewrite Forall_app, Forall_singleton in Hrest.
    destruct Hrest as [Hrest Hlast]. simpl in Hlast.
    replace (rd ++ (key, value) :: rest ++ [(k, v)])
      with ((rd ++ (key, value) :: rest) ++ [(k, v)])
      by (by rewrite <- app_assoc).
    rewrite sanitize_loop_snoc, lookup_insert_ne by done. by apply IH.
Qed.

Lemma sanitize_loop_size rd :
  size (sanitize_loop new_key rd) ≤ length rd.
Proof.
  induction rd as [|[k v] rd IH] using rev_ind.
  { unfold sanitize_loop. simpl. by rewrite map_size_empty. }
  rewrite sanitize_loop_snoc, length_app, map_size_insert. simpl.
  destruct (sanitize_loop new_key rd !! new_key k); simpl; lia.
Qed.

Lemma sanitize_loop_size_app rd rest :
  size (sanitize_loop new_key (rd ++ rest))
  ≤ size (sanitize_loop new_key rd) + length rest.
Proof.
  induction rest as [|[k v] rest IH] using rev_ind.
  - rewrite app_nil_r. simpl. lia.
  - rewrite app_assoc, sanitize_loop_snoc, length_app, map_size_insert. simpl.
    destruct (sanitize_loop new_key (rd ++ rest) !! new_key k); simpl; lia.
Qed.

(** Two items whose keys strip to the same key leave one entry fewer. *)
Lemma sanitize_loop_merge rd1 key1 value1 rd2 key2 value2 rd3 :
  new_key key1 = new_key key2 →
  size (sanitize_loop new_key
          (rd1 ++ (key1, value1) :: rd2 ++ (key2, value2) :: rd3))
  < length (rd1 ++ (key1, value1) :: rd2 ++ (key2, value2) :: rd3).
Proof.
  intros Hkey.
  replace (rd1 ++ (key1, value1) :: rd2 ++ (key2, value2) :: rd3)
    with (((rd1 ++ (key1, value1) :: rd2) ++ [(key2, value2)]) ++ rd3)
    by (by rewrite <- !app_assoc).
  pose proof (sanitize_loop_size_app
                ((rd1 ++ (key1, value1) :: rd2) ++ [(key2, value2)]) rd3) as Hrest.
  pose proof (sanitize_loop_size (rd1 ++ (key1, value1) :: rd2)) as Hfront.
  assert (is_Some (sanitize_loop new_key (rd1 ++ (key1, value1) :: rd2)
                     !! new_key key2)) as [v Hv].
  { rewrite <- Hkey. apply (sanitize_loop_is_Some _ key1 value1).
    apply elem_of_app. right. apply elem_of_cons. by left. }
  rewrite sanitize_loop_snoc, map_size_insert, Hv in Hrest.
  rewrite !length_app in *. simpl in *. lia.
Qed.


End sanitize_loop.

(** ** Sanitization claims *)

(** C8.  The stripping transformation is idempotent: applied to a key it
    has already been applied to, it changes nothing.  Both the variant of
    PostGenerator (apostrophe and double quote) and the variant of
    BlogPostGenerator (backtick as well). *)
Theorem sanitize_idempotent (x : string) :
  PostGenerator_new_key (PostGenerator_new_key x) = PostGenerator_new_key x
  ∧ BlogPostGenerator_new_key (BlogPostGenerator_new_key x)
    = BlogPostGenerator_new_key x.
Proof.
  split.
  - destruct (PostGenerator_new_key_clean x) as [Ha Hd].
    by apply PostGenerator_new_key_id.
  - destruct (BlogPostGenerator_new_key_clean x) as (Ha & Hd & Hb).
    by apply BlogPostGenerator_new_key_id.
Qed.

(** C10.  Key sanitization can merge entries.  When two distinct keys of
    the request strip to the same key, the sanitized dictionary has one
    entry for it, holding the value of the one processed last, and has
    fewer entries than the request has items; a key with none of the
    stripped characters is kept as it is.  PostGenerator first, then
    BlogPostGenerator. *)
Theorem key_sanitization_merges :
  (∀ rd1 key1 value1 rd2 key2 value2 rd3,
     key1 ≠ key2 →
     PostGenerator_new_key key1 = PostGenerator_new_key key2 →
     Forall (λ kv, PostGenerator_new_key kv.1 ≠ PostGenerator_new_key key2) rd3 →
     let request_data := rd1 ++ (key1, value1) :: rd2 ++ (key2, value2) :: rd3 in
     let sanitized_data := PostGenerator_sanitize request_data in
     sanitized_data !! PostGenerator_new_key key1 = Some value2
     ∧ size sanitized_data < length request_data
     ∧ ∀ key value,
         (key, value) ∈ request_data →
         occurs apostrophe key = false → occurs double_quote key = false →
         PostGenerator_new_key key = key ∧ is_Some (sanitized_data !! key))
  ∧
  (∀ rd1 key1 value1 rd2 key2 value2 rd3,
     key1 ≠ key2 →
     BlogPostGenerator_new_key key1 = BlogPostGenerator_new_key key2 →
     Forall (λ kv, BlogPostGenerator_new_key kv.1 ≠ BlogPostGenerator_new_key key2) rd3 →
     let request_data := rd1 ++ (key1, value1) :: rd2 ++ (key2, value2) :: rd3 in
     let sanitized_data := BlogPostGenerator_sanitize request_data in
     sanitized_data !! BlogPostGenerator_new_key key1 = Some value2
     ∧ size sanitized_data < length request_data
     ∧ ∀ key value,
         (key, value) ∈ request_data →
         occurs apostrophe key = false → occurs double_quote key = false →
         occurs backtick key = false →
         BlogPostGenerator_new_key key = key ∧ is_Some (sanitized_data !! key)).
Proof.
  split; intros rd1 key1 value1 rd2 key2 value2 rd3 _ Hkey Hrd3;
    cbv zeta; unfold PostGenerator_sanitize, BlogPostGenerator_sanitize.
  - split; [|split].
    + rewrite Hkey.
      replace (rd1 ++ (key1, value1) :: rd2 ++ (key2, value2) :: rd3)
        with ((rd1 ++ (key1, value1) :: rd2) ++ (key2, value2) :: rd3)
        by (by rewrite <- app_assoc).
      by apply sanitize_loop_last.
    + by apply sanitize_loop_merge.
    + intros key value Hin Ha Hd.
      assert (PostGenerator_new_key key = key) as Hid
        by (by apply PostGenerator_new_key_id).
      split; [done|]. rewrite <- Hid.
      by apply (sanitize_loop_is_Some _ _ key value).
  - split; [|split].
    + rewrite Hkey.
      replace (rd1 ++ (key1, value1) :: rd2 ++ (key2, value2) :: rd3)
        with ((rd1 ++ (key1, value1) :: rd2) ++ (key2, value2) :: rd3)
        by (by rewrite <- app_assoc).
      by apply sanitize_loop_last.
    + by apply sanitize_loop_merge.
    + intros key value Hin Ha Hd Hb.
      assert (BlogPostGenerator_new_key key = key) as Hid
        by (by apply BlogPostGenerator_new_key_id).
      split; [done|]. rewrite <- Hid.
      by apply (sanitize_loop_is_Some _ _ key value).
Qed.


(** ** Schema validation *)

Lemma validate_str_max (f : FieldInfo) (s : string) (hi : nat) :
  min_length f = None → max_length f = Some hi →
  validate_str f s = true ↔ String.length s ≤ hi.
Proof.
  unfold validate_str. intros -> ->. simpl. apply Nat.leb_le.
Qed.

Lemma validate_str_min_max (f : FieldInfo) (s : string) (lo hi : nat) :
  min_length f = Some lo → max_length f = Some hi →
  validate_str f s = true ↔ lo ≤ String.length s ≤ hi.
Proof.
  unfold validate_str. intros -> ->. simpl.
  by rewrite andb_true_iff, !Nat.leb_le.
Qed.

Lemma validate_list_min_max (f : FieldInfo) (l : list string) (lo hi : nat) :
  min_items f = Some lo → max_items f = Some hi →
  validate_list f l = true ↔ lo ≤ length l ≤ hi.
Proof.
  unfold validate_list. intros -> ->. simpl.
  by rewrite andb_true_iff, !Nat.leb_le.
Qed.

Lemma SocialMediaPost_validate_spec (p : SocialMediaPost.t) :
  SocialMediaPost.validate p = true
  ↔ String.length (SocialMediaPost.title p) ≤ 70
    ∧ 500 ≤ String.length (SocialMediaPost.body p) ≤ 2100
    ∧ length (SocialMediaPost.hashtags p) = 3.
Proof.
  unfold SocialMediaPost.validate. rewrite 2!andb_true_iff.
  rewrite (validate_str_max _ _ 70) by reflexivity.
  rewrite (validate_str_min_max _ _ 500 2100) by reflexivity.
  rewrite (validate_list_min_max _ _ 3 3) by reflexivity.
  intuition lia.
Qed.

Lemma BlogPost_validate_spec (p : BlogPost.t) :
  BlogPost.validate p = true
  ↔ String.length (BlogPost.title p) ≤ 120
    ∧ 2800 ≤ String.length (BlogPost.contentBody p) ≤ 4000
    ∧ 3 ≤ length (BlogPost.hashtags p) ≤ 5.
Proof.
  unfold BlogPost.validate. rewrite 2!andb_true_iff.
  rewrite (validate_str_max _ _ 120) by reflexivity.
  rewrite (validate_str_min_max _ _ 2800 4000) by reflexivity.
  rewrite (validate_list_min_max _ _ 3 5) by reflexivity.
  tauto.
Qed.

(** C9, as the code has it.  The bounds a field declares are what
    validation checks: an instance of either schema validates exactly when
    its title and body lengths and its number of hashtags are within the
    declared bounds.  The structure the descriptions ask for is no part of
    the predicate. *)
Theorem schema_validation_checks_bounds :
  (∀ p : SocialMediaPost.t,
     SocialMediaPost.validate p = true
     ↔ String.length (SocialMediaPost.title p) ≤ 70
       ∧ 500 ≤ String.length (SocialMediaPost.body p) ≤ 2100
       ∧ length (SocialMediaPost.hashtags p) = 3)
  ∧ (∀ p : BlogPost.t,
       BlogPost.validate p = true
       ↔ String.length (BlogPost.title p) ≤ 120
         ∧ 2800 ≤ String.length (BlogPost.contentBody p) ≤ 4000
         ∧ 3 ≤ length (BlogPost.hashtags p) ≤ 5).
Proof. split; [apply SocialMediaPost_validate_spec | apply BlogPost_validate_spec]. Qed.

(** ** The completion client *)

(** C5.  The request create_completion hands to the client carries, for
    each of model, temperature, max_retries and max_tokens, the keyword
    argument when the caller gave one and the provider setting otherwise;
    response_model and messages are those it was given. *)
Theorem create_completion_params (self : LLMFactory) (response_model : BaseModel)
    (messages : list Message) (kwargs : gmap string pyval) (w : world) :
  ∃ p : Params.t,
    create_completion self response_model messages kwargs w
    = (client self p w, w ++ [p])
    ∧ Params.model p
      = match kwargs !! "model" with
        | Some v => v
        | None => PyStr (OpenAISettings.default_model (settings self))
        end
    ∧ Params.temperature p
      = match kwargs !! "temperature" with
        | Some v => v
        | None => PyFloat (OpenAISettings.temperature (settings self))
        end
    ∧ Params.max_retries p
      = match kwargs !! "max_retries" with
        | Some v => v
        | None => PyInt (OpenAISettings.max_retries (settings self))
        end
    ∧ Params.max_tokens p
      = match kwargs !! "max_tokens" with
        | Some v => v
        | None => pyval_of_option (OpenAISettings.max_tokens (settings self))
        end
    ∧ Params.response_model p = response_model
    ∧ Params.messages p = messages.
Proof. eexists. split; [reflexivity|]. by repeat split. Qed.

(** ** The generators *)

Lemma LLMFactory_init_openai (w : world) :
  LLMFactory_init "openai" w
  = (inr {| provider := "openai";
            settings := Settings.openai get_settings;
            client := from_openai
                        (OpenAISettings.api_key (Settings.openai get_settings)) |},
     w).
Proof. reflexivity. Qed.

(** One run of PostGenerator: a single request goes to the client, and the
    outcome is decided by what the client answers. *)
Lemma PostGenerator_run (request_data : list (string * string)) (w : world) :
  ∃ p : Params.t,
    Params.response_model p = SocialMediaPostModel
    ∧ Params.messages p = PostGenerator_messages request_data
    ∧ PostGenerator request_data w
      = (match from_openai (OpenAISettings.api_key (Settings.openai get_settings)) p w with
         | inl e => inl e
         | inr (Social post) =>
             inr (JObj [ ("title", JStr (SocialMediaPost.title post));
                         ("body", JStr (SocialMediaPost.body post));
                         ("hashtags", JList (JStr <$> SocialMediaPost.hashtags post)) ])
         | inr (Blog _) =>
             inl (Exception "AttributeError" "'BlogPost' object has no attribute 'body'")
         end, w ++ [p]).
Proof.
  pose (s := Settings.openai get_settings).
  exists {| Params.model := PyStr (OpenAISettings.default_model s);
            Params.temperature := PyFloat (OpenAISettings.temperature s);
            Params.max_retries := PyInt (OpenAISettings.max_retries s);
            Params.max_tokens := pyval_of_option (OpenAISettings.max_tokens s);
            Params.response_model := SocialMediaPostModel;
            Params.messages := PostGenerator_messages request_data |}.
  split; [reflexivity|]. split; [reflexivity|].
  unfold PostGenerator, bind. rewrite LLMFactory_init_openai.
  unfold create_completion, chat_completions_create, ret.
  cbn [settings client]. fold s.
  unfold get. rewrite !lookup_empty.
  destruct (from_openai _ _ w) as [e|[post|post]]; reflexivity.
Qed.

Lemma BlogPostGenerator_run (request_data : list (string * string)) (w : world) :
  ∃ p : Params.t,
    Params.response_model p = BlogPostModel
    ∧ Params.messages p = BlogPostGenerator_messages request_data
    ∧ BlogPostGenerator request_data w
      = (match from_openai (OpenAISettings.api_key (Settings.openai get_settings)) p w with
         | inl e => inl e
         | inr (Blog post) =>
             inr (JObj [ ("title", JStr (BlogPost.title post));
                         ("contentBody", JStr (BlogPost.contentBody post));
                         ("hashtags", JList (JStr <$> BlogPost.hashtags post)) ])
         | inr (Social _) =>
             inl (Exception "AttributeError"
                    "'SocialMediaPost' object has no attribute 'contentBody'")
         end, w ++ [p]).
Proof.
  pose (s := Settings.openai get_settings).
  exists {| Params.model := PyStr (OpenAISettings.default_model s);
            Params.temperature := PyFloat (OpenAISettings.temperature s);
            Params.max_retries := PyInt (OpenAISettings.max_retries s);
            Params.max_tokens := pyval_of_option (OpenAISettings.max_tokens s);
            Params.response_model := BlogPostModel;
            Params.messages := BlogPostGenerator_messages request_data |}.
  split; [reflexivity|]. split; [reflexivity|].
  unfold BlogPostGenerator, bind. rewrite LLMFactory_init_openai.
  unfold create_completion, chat_completions_create, ret.
  cbn [settings client]. fold s.
  unfold get. rewrite !lookup_empty.
  destruct (from_openai _ _ w) as [e|[post|post]]; reflexivity.
Qed.


(** ** Message construction *)

(** Two instances of a template are equal when their slots are. *)
Lemma template_congr (literal slot slot' rest rest' : string) :
  slot = slot' → rest = rest' →
  literal +:+ slot +:+ rest = literal +:+ slot' +:+ rest'.
Proof. by intros -> ->. Qed.





(** ** The endpoints *)

Lemma missing_field_required (request_json : list (string * string)) :
  missing_field required_fields request_json
  = if contains request_json "2.AI Transcript Rough" then
      if contains request_json "12.Topic Name" then None
      else Some {| body := error_body "Missing required field: 12.Topic Name";
                   status := 400 |}
    else Some {| body := error_body "Missing required field: 2.AI Transcript Rough";
                 status := 400 |}.
Proof. reflexivity. Qed.

(** C4.  generate_blog answers 400, naming the first missing field, when
    the body lacks one of the two required keys, and sends nothing to the
    client in that case; when both are present the answer is that of
    BlogPostGenerator run on the body, which sends its request. *)
Theorem generate_blog_validation (request_json : list (string * string)) (w : world) :
  ("2.AI Transcript Rough" ∉ request_json.*1 →
   generate_blog request_json w
   = (inr {| body := error_body "Missing required field: 2.AI Transcript Rough";
             status := 400 |}, w))
  ∧ ("2.AI Transcript Rough" ∈ request_json.*1 →
     "12.Topic Name" ∉ request_json.*1 →
     generate_blog request_json w
     = (inr {| body := error_body "Missing required field: 12.Topic Name";
               status := 400 |}, w))
  ∧ ("2.AI Transcript Rough" ∈ request_json.*1 →
     "12.Topic Name" ∈ request_json.*1 →
     generate_blog request_json w
     = (match (BlogPostGenerator request_json w).1 with
        | inr result => inr (jsonify result)
        | inl e => inr {| body := error_body "Internal server error"; status := 500 |}
        end, (BlogPostGenerator request_json w).2)
     ∧ ∃ p, (generate_blog request_json w).2 = w ++ [p]
            ∧ Params.response_model p = BlogPostModel
            ∧ Params.messages p = BlogPostGenerator_messages request_json).
Proof.
  unfold generate_blog, try_except. rewrite missing_field_required.
  unfold contains. split; [|split].
  - intros H1. by rewrite bool_decide_eq_false_2.
  - intros H1 H2. by rewrite bool_decide_eq_true_2, bool_decide_eq_false_2.
  - intros H1 H2. rewrite !bool_decide_eq_true_2 by done.
    unfold bind.
    destruct (BlogPostGenerator_run request_json w) as (p & Hcls & Hmsg & Hrun).
    rewrite Hrun. cbn [fst snd].
    split.
    + by destruct (from_openai _ p w) as [e|[post|post]].
    + exists p. by destruct (from_openai _ p w) as [e|[post|post]].
Qed.

(** What each endpoint answers when its generator raises [e]. *)
Lemma generate_post_exception request_json w e w' :
  PostGenerator request_json w = (inl e, w') →
  generate_post request_json w
  = (inr {| body := error_body (str e); status := 500 |}, w').
Proof. intros H. unfold generate_post, try_except, bind. by rewrite H. Qed.

Lemma generate_blog_exception request_json w e w' :
  missing_field required_fields request_json = None →
  BlogPostGenerator request_json w = (inl e, w') →
  generate_blog request_json w
  = (inr {| body := error_body "Internal server error"; status := 500 |}, w').
Proof.
  intros Hvalid H. unfold generate_blog, try_except, bind. by rewrite Hvalid, H.
Qed.

(** ** Sanitization without collisions *)

Section sanitize_no_collision.
Variable new_key : string → string.

Lemma sanitize_loop_lookup_None rd key :
  key ∉ new_key <$> rd.*1 → sanitize_loop new_key rd !! key = None.
Proof.
  intros Hfresh. apply eq_None_not_Some. intros [value Hvalue].
  apply sanitize_loop_lookup_Some in Hvalue as (key0 & Hin & <-).
  apply Hfresh, list_elem_of_fmap_2.
  by apply (list_elem_of_fmap_2 fst _ (key0, value)).
Qed.

Lemma sanitize_loop_no_collision rd key value :
  NoDup (new_key <$> rd.*1) → (key, value) ∈ rd →
  sanitize_loop new_key rd !! new_key key = Some value.
Proof.
  induction rd as [|[k v] rd IH] using rev_ind; [by intros _ ?%elem_of_nil|].
  rewrite !fmap_app, NoDup_app. cbn [fmap list_fmap fst].
  intros (Hnodup & Hfresh & _) [Hin|Hin%list_elem_of_singleton]%elem_of_app;
    rewrite sanitize_loop_snoc.
  - rewrite lookup_insert_ne; [by apply IH|].
    intros Heq. apply (Hfresh (new_key key)).
    + apply list_elem_of_fmap_2.
      by apply (list_elem_of_fmap_2 fst _ (key, value)).
    + rewrite Heq. by apply list_elem_of_singleton.
  - injection Hin as -> ->. by rewrite lookup_insert_eq.
Qed.

Lemma sanitize_loop_no_collision_size rd :
  NoDup (new_key <$> rd.*1) → size (sanitize_loop new_key rd) = length rd.
Proof.
  induction rd as [|[k v] rd IH] using rev_ind; [done|].
  rewrite !fmap_app, NoDup_app. cbn [fmap list_fmap fst].
  intros (Hnodup & Hfresh & _).
  rewrite sanitize_loop_snoc, map_size_insert_None.
  - rewrite length_app, IH by done. simpl. lia.
  - apply sanitize_loop_lookup_None. intros Hin.
    apply (Hfresh _ Hin). by apply list_elem_of_singleton.
Qed.

Lemma sanitize_loop_lookup_iff rd key value :
  NoDup (new_key <$> rd.*1) →
  sanitize_loop new_key rd !! key = Some value
  ↔ ∃ key0, (key0, value) ∈ rd ∧ new_key key0 = key.
Proof.
  intros Hnodup. split; [apply sanitize_loop_lookup_Some|].
  intros (key0 & Hin & <-). by apply sanitize_loop_no_collision.
Qed.

Lemma sanitize_loop_Permutation rd rd' :
  NoDup (new_key <$> rd.*1) → rd ≡ₚ rd' →
  sanitize_loop new_key rd' = sanitize_loop new_key rd.
Proof.
  intros Hnodup Hperm. apply map_eq. intros key. apply option_eq. intros value.
  rewrite !sanitize_loop_lookup_iff; [|done|by rewrite <- Hperm].
  by setoid_rewrite Hperm.
Qed.

(** With keys that [new_key] leaves alone and no key twice, the loop
    copies the request. *)
Lemma sanitize_loop_copy rd :
  Forall (λ kv, new_key kv.1 = kv.1) rd → NoDup rd.*1 →
  sanitize_loop new_key rd = list_to_map rd.
Proof.
  intros Hclean Hnodup.
  assert (new_key <$> rd.*1 = rd.*1) as Hkeys.
  { clear Hnodup. induction Hclean as [|[k v] rd Hk _ IH]; [done|].
    cbn [fmap list_fmap fst] in *. simpl in Hk. by rewrite Hk, IH. }
  apply map_eq. intros key. apply option_eq. intros value.
  rewrite sanitize_loop_lookup_iff by (by rewrite Hkeys).
  rewrite <- elem_of_list_to_map by done. split.
  - intros (key0 & Hin & <-).
    rewrite Forall_forall in Hclean. specialize (Hclean _ Hin).
    simpl in Hclean. by rewrite Hclean.
  - intros Hin. exists key. split; [done|].
    rewrite Forall_forall in Hclean. apply (Hclean _ Hin).
Qed.

End sanitize_no_collision.

(** ** What [new_key] removes and what it keeps *)

Lemma replace_filter (s : string) (c : ascii) :
  String.list_ascii_of_string (replace s c "")
  = filter (λ a, a ≠ c) (String.list_ascii_of_string s).
Proof.
  induction s as [|a s IH]; simpl; [done|].
  destruct (decide (a = c)) as [->|Hne].
  - by rewrite filter_cons_False by (by intros ?).
  - rewrite filter_cons_True by done. simpl. by rewrite IH.
Qed.

Lemma length_list_ascii_of_string (s : string) :
  length (String.list_ascii_of_string s) = String.length s.
Proof. induction s as [|a s IH]; simpl; by rewrite ?IH. Qed.

(** X9.  [new_key] removes exactly the listed characters and keeps every
    other character, in order: as a list of characters, the new key is the
    old one filtered.  It is never longer than the key. *)
Theorem new_key_filter (key : string) :
  String.list_ascii_of_string (PostGenerator_new_key key)
  = filter (λ a, a ≠ double_quote ∧ a ≠ apostrophe) (String.list_ascii_of_string key)
  ∧ String.list_ascii_of_string (BlogPostGenerator_new_key key)
    = filter (λ a, a ≠ backtick ∧ a ≠ double_quote ∧ a ≠ apostrophe)
             (String.list_ascii_of_string key)
  ∧ String.length (PostGenerator_new_key key) ≤ String.length key
  ∧ String.length (BlogPostGenerator_new_key key) ≤ String.length key.
Proof.
  assert (String.list_ascii_of_string (PostGenerator_new_key key)
          = filter (λ a, a ≠ double_quote ∧ a ≠ apostrophe)
                   (String.list_ascii_of_string key)) as Hpost.
  { unfold PostGenerator_new_key. by rewrite !replace_filter, list_filter_filter. }
  assert (String.list_ascii_of_string (BlogPostGenerator_new_key key)
          = filter (λ a, a ≠ backtick ∧ a ≠ double_quote ∧ a ≠ apostrophe)
                   (String.list_ascii_of_string key)) as Hblog.
  { unfold BlogPostGenerator_new_key.
    rewrite !replace_filter, !list_filter_filter.
    apply list_filter_iff. intros a. tauto. }
  split; [done|]. split; [done|].
  rewrite <- !length_list_ascii_of_string, Hpost, Hblog.
  split; apply length_filter.
Qed.

(** X10.  When no two keys of the request strip to the same key, nothing
    is lost: every value is found under its stripped key, and the
    sanitized dictionary has as many entries as the request has items. *)
Theorem sanitize_without_collisions (request_data : list (string * string)) :
  (NoDup (PostGenerator_new_key <$> request_data.*1) →
   (∀ key value, (key, value) ∈ request_data →
      PostGenerator_sanitize request_data !! PostGenerator_new_key key = Some value)
   ∧ size (PostGenerator_sanitize request_data) = length request_data)
  ∧ (NoDup (BlogPostGenerator_new_key <$> request_data.*1) →
     (∀ key value, (key, value) ∈ request_data →
        BlogPostGenerator_sanitize request_data !! BlogPostGenerator_new_key key
        = Some value)
     ∧ size (BlogPostGenerator_sanitize request_data) = length request_data).
Proof.
  split; intros Hnodup; (split;
    [intros key value; by apply sanitize_loop_no_collision
    |by apply sanitize_loop_no_collision_size]).
Qed.

(** X11.  A request whose keys are pairwise distinct and free of the
    stripped characters goes through sanitization unchanged: the sanitized
    dictionary is the request. *)
Theorem sanitize_clean_request (request_data : list (string * string)) :
  (NoDup request_data.*1 →
   Forall (λ kv, occurs apostrophe kv.1 = false ∧ occurs double_quote kv.1 = false)
          request_data →
   PostGenerator_sanitize request_data = list_to_map request_data)
  ∧ (NoDup request_data.*1 →
     Forall (λ kv, occurs apostrophe kv.1 = false ∧ occurs double_quote kv.1 = false
                   ∧ occurs backtick kv.1 = false) request_data →
     BlogPostGenerator_sanitize request_data = list_to_map request_data).
Proof.
  split; intros Hnodup Hclean; apply sanitize_loop_copy; try done;
    eapply Forall_impl; try exact Hclean; simpl.
  - intros kv [Ha Hd]. by apply PostGenerator_new_key_id.
  - intros kv (Ha & Hd & Hb). by apply BlogPostGenerator_new_key_id.
Qed.

(** The messages are a function of the lookups at the template keys. *)
Ltac same_template_on Hget :=
  repeat (apply template_congr;
          [apply Hget; apply (bool_decide_unpack _); vm_compute; exact I|]);
  reflexivity.

Lemma PostGenerator_contents_ext (sd sd' : gmap string string) :
  (∀ key, key ∈ PostGenerator_keys → get sd key "" = get sd' key "") →
  PostGenerator_system_content sd = PostGenerator_system_content sd'
  ∧ PostGenerator_user_content sd = PostGenerator_user_content sd'.
Proof.
  intros Hget. unfold PostGenerator_system_content, PostGenerator_user_content.
  split; by same_template_on Hget.
Qed.

Lemma BlogPostGenerator_contents_ext (sd sd' : gmap string string) :
  (∀ key, key ∈ BlogPostGenerator_keys → get sd key "" = get sd' key "") →
  BlogPostGenerator_system_content sd = BlogPostGenerator_system_content sd'
  ∧ BlogPostGenerator_user_content sd = BlogPostGenerator_user_content sd'.
Proof.
  intros Hget. unfold BlogPostGenerator_system_content, BlogPostGenerator_user_content.
  split; by same_template_on Hget.
Qed.

(** X12.  The order of the items of the request matters only through
    collisions: when no two keys strip to the same key, any reordering of
    the request gives the same messages. *)
Theorem messages_order_independent (request_data request_data' : list (string * string)) :
  request_data ≡ₚ request_data' →
  (NoDup (PostGenerator_new_key <$> request_data.*1) →
   PostGenerator_messages request_data' = PostGenerator_messages request_data)
  ∧ (NoDup (BlogPostGenerator_new_key <$> request_data.*1) →
     BlogPostGenerator_messages request_data' = BlogPostGenerator_messages request_data).
Proof.
  intros Hperm. split; intros Hnodup.
  - unfold PostGenerator_messages, PostGenerator_sanitize.
    by rewrite (sanitize_loop_Permutation _ _ _ Hnodup Hperm).
  - unfold BlogPostGenerator_messages, BlogPostGenerator_sanitize.
    by rewrite (sanitize_loop_Permutation _ _ _ Hnodup Hperm).
Qed.

(** X13.  Fields the templates do not name are ignored: an item whose
    stripped key is none of the keys a generator looks up changes nothing
    in its messages, whatever its value. *)
Theorem unknown_keys_ignored (request_data : list (string * string)) (key value : string) :
  (PostGenerator_new_key key ∉ PostGenerator_keys →
   PostGenerator_messages (request_data ++ [(key, value)])
   = PostGenerator_messages request_data)
  ∧ (BlogPostGenerator_new_key key ∉ BlogPostGenerator_keys →
     BlogPostGenerator_messages (request_data ++ [(key, value)])
     = BlogPostGenerator_messages request_data).
Proof.
  split; intros Hunknown.
  - unfold PostGenerator_messages, PostGenerator_sanitize.
    rewrite sanitize_loop_snoc.
    destruct (PostGenerator_contents_ext
                (<[PostGenerator_new_key key := value]>
                   (sanitize_loop PostGenerator_new_key request_data))
                (sanitize_loop PostGenerator_new_key request_data)) as [-> ->];
      [|done].
    intros key' Hin. unfold get. rewrite lookup_insert_ne; [done|].
    intros <-. by apply Hunknown.
  - unfold BlogPostGenerator_messages, BlogPostGenerator_sanitize.
    rewrite sanitize_loop_snoc.
    destruct (BlogPostGenerator_contents_ext
                (<[BlogPostGenerator_new_key key := value]>
                   (sanitize_loop BlogPostGenerator_new_key request_data))
                (sanitize_loop BlogPostGenerator_new_key request_data)) as [-> ->];
      [|done].
    intros key' Hin. unfold get. rewrite lookup_insert_ne; [done|].
    intros <-. by apply Hunknown.
Qed.

(** ** The generators and endpoints, continued *)

(** X1.  Provided the client keeps its contract, BlogPostGenerator either
    returns an object with title, contentBody and hashtags where the title
    has at most 120 characters, the content between 2800 and 4000, and
    there are 3 to 5 hashtags, or it fails with the very failure of the
    client. *)
Theorem blog_result_within_bounds :
  (∀ api_key p w c,
     from_openai api_key p w = inr c → conforms (Params.response_model p) c = true) →
  ∀ (request_data : list (string * string)) (w : world),
    match (BlogPostGenerator request_data w).1 with
    | inr result =>
        ∃ title contentBody hashtags,
          result = JObj [ ("title", JStr title);
                          ("contentBody", JStr contentBody);
                          ("hashtags", JList (JStr <$> hashtags)) ]
          ∧ String.length title ≤ 120
          ∧ 2800 ≤ String.length contentBody ≤ 4000
          ∧ 3 ≤ length hashtags ≤ 5
    | inl e =>
        ∃ p, Params.messages p = BlogPostGenerator_messages request_data
             ∧ from_openai (OpenAISettings.api_key (Settings.openai get_settings)) p w
               = inl e
    end.
Proof.
  intros Hcontract request_data w.
  destruct (BlogPostGenerator_run request_data w) as (p & Hcls & Hmsg & ->).
  cbn [fst].
  destruct (from_openai _ p w) as [e|c] eqn:Hcall; [by exists p|].
  apply Hcontract in Hcall. rewrite Hcls in Hcall.
  destruct c as [post|post]; [discriminate|].
  apply BlogPost_validate_spec in Hcall. eauto.
Qed.



(** X4.  With a client that keeps its contract, a 200 answer of either
    endpoint carries a complete payload within the bounds of its schema. *)
Theorem endpoints_ok_payload :
  (∀ api_key p w c,
     from_openai api_key p w = inr c → conforms (Params.response_model p) c = true) →
  ∀ (request_json : list (string * string)) (w : world) (r : Response),
    ((generate_post request_json w).1 = inr r → status r = 200 →
     ∃ title body_ hashtags,
       body r = JObj [ ("title", JStr title);
                       ("body", JStr body_);
                       ("hashtags", JList (JStr <$> hashtags)) ]
       ∧ String.length title ≤ 70
       ∧ 500 ≤ String.length body_ ≤ 2100
       ∧ length hashtags = 3)
    ∧ ((generate_blog request_json w).1 = inr r → status r = 200 →
       ∃ title contentBody hashtags,
         body r = JObj [ ("title", JStr title);
                         ("contentBody", JStr contentBody);
                         ("hashtags", JList (JStr <$> hashtags)) ]
         ∧ String.length title ≤ 120
         ∧ 2800 ≤ String.length contentBody ≤ 4000
         ∧ 3 ≤ length hashtags ≤ 5).
Proof.
  intros Hcontract request_json w r. split.
  - unfold generate_post, try_except, bind.
    destruct (PostGenerator_run request_json w) as (p & Hcls & _ & ->).
    destruct (from_openai _ p w) as [e|c] eqn:Hcall; [by intros [= <-]|].
    apply Hcontract in Hcall. rewrite Hcls in Hcall.
    destruct c as [post|post]; [|discriminate].
    apply SocialMediaPost_validate_spec in Hcall.
    intros [= <-] _. cbn [body jsonify]. eauto.
  - unfold generate_blog, try_except, bind. rewrite missing_field_required.
    destruct (contains request_json "2.AI Transcript Rough");
      [destruct (contains request_json "12.Topic Name")|];
      [|by intros [= <-]..].
    destruct (BlogPostGenerator_run request_json w) as (p & Hcls & _ & ->).
    destruct (from_openai _ p w) as [e|c] eqn:Hcall; [by intros [= <-]|].
    apply Hcontract in Hcall. rewrite Hcls in Hcall.
    destruct c as [post|post]; [discriminate|].
    apply BlogPost_validate_spec in Hcall.
    intros [= <-] _. cbn [body jsonify]. eauto.
Qed.

(** X5.  LLMFactory supports the one provider openai: with that name it
    is built from the openai settings, its client made from their API
    key; with any other name construction raises, and in neither case is
    anything sent. *)
Theorem LLMFactory_init_supported (name : string) (w : world) :
  (name = "openai" →
   LLMFactory_init name w
   = (inr {| provider := "openai";
             settings := Settings.openai get_settings;
             client := from_openai
                         (OpenAISettings.api_key (Settings.openai get_settings)) |},
      w))
  ∧ (name ≠ "openai" → ∃ e, LLMFactory_init name w = (inl e, w)).
Proof.
  split.
  - intros ->. apply LLMFactory_init_openai.
  - intros Hother. unfold LLMFactory_init, getattr_settings, bind.
    rewrite decide_False by done.
    destruct (decide (name = "app_name")); by eexists.
Qed.


(** X7.  The generators pass no keyword argument of their own: whatever
    the request, the one request each sends asks for the configured model,
    temperature, retry count and token limit, for its own schema, with its
    own two messages. *)
Theorem generators_send_configured_params
    (request_data : list (string * string)) (w : world) :
  let s := Settings.openai get_settings in
  (PostGenerator request_data w).2
  = w ++ [ {| Params.model := PyStr (OpenAISettings.default_model s);
              Params.temperature := PyFloat (OpenAISettings.temperature s);
              Params.max_retries := PyInt (OpenAISettings.max_retries s);
              Params.max_tokens := pyval_of_option (OpenAISettings.max_tokens s);
              Params.response_model := SocialMediaPostModel;
              Params.messages := PostGenerator_messages request_data |} ]
  ∧ (BlogPostGenerator request_data w).2
    = w ++ [ {| Params.model := PyStr (OpenAISettings.default_model s);
                Params.temperature := PyFloat (OpenAISettings.temperature s);
                Params.max_retries := PyInt (OpenAISettings.max_retries s);
                Params.max_tokens := pyval_of_option (OpenAISettings.max_tokens s);
                Params.response_model := BlogPostModel;
                Params.messages := BlogPostGenerator_messages request_data |} ].
Proof.
  intros s. split.
  - unfold PostGenerator, bind. rewrite LLMFactory_init_openai.
    unfold create_completion, chat_completions_create, ret.
    cbn [settings client]. fold s. unfold get. rewrite !lookup_empty.
    by destruct (from_openai _ _ w) as [e|[post|post]].
  - unfold BlogPostGenerator, bind. rewrite LLMFactory_init_openai.
    unfold create_completion, chat_completions_create, ret.
    cbn [settings client]. fold s. unfold get. rewrite !lookup_empty.
    by destruct (from_openai _ _ w) as [e|[post|post]].
Qed.


End Program.

(** ** The claims at concrete requests *)

Lemma sample_client_conforms (api_key : string) (p : Params.t) (w : world)
    (c : completion) :
  sample_client p w = inr c → conforms (Params.response_model p) c = true.
Proof.
  unfold sample_client.
  destruct (Params.response_model p); intros [= <-]; vm_compute; reflexivity.
Defined.


Example PostGenerator_sample :
  (PostGenerator (Settings.defaults "sk-proj-1234") (λ _, sample_client)
     sample_request []).1
  = inr (JObj [ ("title", JStr "Adapting to evolving B2B buyer behavior");
                ("body", JStr (str_repeat "a" 500));
                ("hashtags", JList [JStr "#b2b"; JStr "#buyers"; JStr "#GrowthMatch"]) ]).
Proof. vm_compute. reflexivity. Qed.


(** With no field at all, every slot of the user message is empty. *)
Example PostGenerator_user_content_empty :
  PostGenerator_user_content ∅
  = "
        Please write a social media post using your system instructions and given the AI transcript and topic below:

        <ai_transcript>
        AI Transcript: 
        </ai_transcript>
        <topic>
        Topic Name: 
        </topic>
    ".
Proof. vm_compute. reflexivity. Qed.

(** The scenario of the specification: blog content, topic missing. *)
Lemma generate_blog_validation_witness :
  generate_blog (Settings.defaults "sk-proj-1234") (λ _, sample_client)
    [("2.AI Transcript Rough", "We discussed Q3 growth.")] []
  = (inr {| body := error_body "Missing required field: 12.Topic Name";
            status := 400 |}, [])
  ∧ generate_blog (Settings.defaults "sk-proj-1234") (λ _, sample_client)
      [("12.Topic Name", "Growth")] []
    = (inr {| body := error_body "Missing required field: 2.AI Transcript Rough";
              status := 400 |}, [])
  ∧ ∃ p, (generate_blog (Settings.defaults "sk-proj-1234") (λ _, sample_client)
            sample_request []).2 = [p]
         ∧ Params.response_model p = BlogPostModel.
Proof.
  split; [|split].
  - apply (generate_blog_validation (Settings.defaults "sk-proj-1234")
             (λ _, sample_client)
             [("2.AI Transcript Rough", "We discussed Q3 growth.")] []).
    + apply (bool_decide_unpack _). vm_compute. exact I.
    + apply (bool_decide_eq_false_1 _). vm_compute. reflexivity.
  - apply (generate_blog_validation (Settings.defaults "sk-proj-1234")
             (λ _, sample_client) [("12.Topic Name", "Growth")] []).
    apply (bool_decide_eq_false_1 _). vm_compute. reflexivity.
  - destruct (generate_blog_validation (Settings.defaults "sk-proj-1234")
                (λ _, sample_client) sample_request []) as (_ & _ & Hboth).
    destruct Hboth as (_ & p & Hlog & Hcls & _).
    + apply (bool_decide_unpack _). vm_compute. exact I.
    + apply (bool_decide_unpack _). vm_compute. exact I.
    + exists p. by split.
Defined.

Example generate_blog_sample :
  (generate_blog (Settings.defaults "sk-proj-1234") (λ _, sample_client)
     sample_request []).1
  = inr {| body := JObj [ ("title", JStr "Adapting to Evolving B2B Buyer Behavior");
                          ("contentBody", JStr (str_repeat "a" 2800));
                          ("hashtags",
                            JList [JStr "#b2b"; JStr "#buyers"; JStr "#GrowthMatch"]) ];
           status := 200 |}.
Proof. vm_compute. reflexivity. Qed.

(** C6 at a request whose completion call is rejected: generate_post
    answers 500 with the text of the exception as the error message, where
    generate_blog answers 500 with the fixed message. *)
Lemma generate_post_leaks_exception_text :
  (generate_post (Settings.defaults "sk-proj-1234") (λ _, failing_client)
     sample_request []).1
  = inr {| body := error_body "Error code: 401 - Incorrect API key provided: sk-proj-1234";
           status := 500 |}
  ∧ (generate_blog (Settings.defaults "sk-proj-1234") (λ _, failing_client)
       sample_request []).1
    = inr {| body := error_body "Internal server error"; status := 500 |}.
Proof. split; vm_compute; reflexivity. Qed.

(** Two keys of one request that strip to the same key. *)
Lemma key_sanitization_merges_witness :
  PostGenerator_sanitize [("6.'Name'", "Acme"); ("6.Name", "Globex")] !! "6.Name"
  = Some "Globex"
  ∧ size (PostGenerator_sanitize [("6.'Name'", "Acme"); ("6.Name", "Globex")]) < 2
  ∧ BlogPostGenerator_sanitize [("6.'Name'", "Acme"); ("6.Name", "Globex")] !! "6.Name"
    = Some "Globex"
  ∧ size (BlogPostGenerator_sanitize [("6.'Name'", "Acme"); ("6.Name", "Globex")]) < 2.
Proof.
  destruct key_sanitization_merges as [Hpost Hblog].
  destruct (Hpost [] "6.'Name'" "Acme" [] "6.Name" "Globex" [])
    as (Hp1 & Hp2 & _); [done | vm_compute; reflexivity | constructor |].
  destruct (Hblog [] "6.'Name'" "Acme" [] "6.Name" "Globex" [])
    as (Hb1 & Hb2 & _); [done | vm_compute; reflexivity | constructor |].
  split; [exact Hp1|]. split; [exact Hp2|]. split; [exact Hb1|exact Hb2].
Defined.



(** C9 as stated fails: a social body of 500 letters on a single line (no
    hook under 150 characters, no paragraphs) and a blog body of 2800
    letters with neither frontmatter nor three H2 sections both validate. *)
Lemma structure_not_validated :
  SocialMediaPost.validate sample_social = true
  ∧ ¬ String.length (first_line (SocialMediaPost.body sample_social)) < 150
  ∧ length (lines (SocialMediaPost.body sample_social)) = 1
  ∧ BlogPost.validate sample_blog = true
  ∧ ¬ 3 ≤ h2_sections (BlogPost.contentBody sample_blog)
  ∧ has_frontmatter (BlogPost.contentBody sample_blog) = false.
Proof.
  assert (String.length (first_line (SocialMediaPost.body sample_social)) = 500)
    as Hline by (vm_compute; reflexivity).
  assert (h2_sections (BlogPost.contentBody sample_blog) = 0)
    as Hh2 by (vm_compute; reflexivity).
  rewrite Hline, Hh2.
  repeat split; try (vm_compute; reflexivity); lia.
Qed.

(** ** Further properties at concrete requests *)

(** X8.  With the defaults config/setting.py declares, every request of
    either generator asks for gpt-4o at temperature 0.0 with 5 retries and
    no token limit, whatever the API key, the client and the request. *)
Theorem default_settings_request (OPENAI_API_KEY : string)
    (from_openai : string → Client) (request_data : list (string * string))
    (w : world) :
  (PostGenerator (Settings.defaults OPENAI_API_KEY) from_openai request_data w).2
  = w ++ [ {| Params.model := PyStr "gpt-4o";
              Params.temperature := PyFloat (QArith_base.Qmake 0 1);
              Params.max_retries := PyInt 5;
              Params.max_tokens := PyNone;
              Params.response_model := SocialMediaPostModel;
              Params.messages := PostGenerator_messages request_data |} ]
  ∧ (BlogPostGenerator (Settings.defaults OPENAI_API_KEY) from_openai request_data w).2
    = w ++ [ {| Params.model := PyStr "gpt-4o";
                Params.temperature := PyFloat (QArith_base.Qmake 0 1);
                Params.max_retries := PyInt 5;
                Params.max_tokens := PyNone;
                Params.response_model := BlogPostModel;
                Params.messages := BlogPostGenerator_messages request_data |} ].
Proof.
  split.
  - unfold PostGenerator, bind. rewrite LLMFactory_init_openai.
    unfold create_completion, chat_completions_create, ret.
    cbn [settings client]. unfold get. rewrite !lookup_empty.
    by destruct (from_openai _ _ w) as [e|[post|post]].
  - unfold BlogPostGenerator, bind. rewrite LLMFactory_init_openai.
    unfold create_completion, chat_completions_create, ret.
    cbn [settings client]. unfold get. rewrite !lookup_empty.
    by destruct (from_openai _ _ w) as [e|[post|post]].
Qed.

(** X14.  A body that passes the validation of generate_blog has both
    required slots filled from the request: after sanitization the two
    keys are present, and when no two keys collide each holds the very
    value the body gave it. *)
Theorem validated_request_fills_slots (request_json : list (string * string)) :
  "2.AI Transcript Rough" ∈ request_json.*1 →
  "12.Topic Name" ∈ request_json.*1 →
  is_Some (BlogPostGenerator_sanitize request_json !! "2.AI Transcript Rough")
  ∧ is_Some (BlogPostGenerator_sanitize request_json !! "12.Topic Name")
  ∧ (NoDup (BlogPostGenerator_new_key <$> request_json.*1) →
     ∀ transcript topic,
       ("2.AI Transcript Rough", transcript) ∈ request_json →
       ("12.Topic Name", topic) ∈ request_json →
       get (BlogPostGenerator_sanitize request_json) "2.AI Transcript Rough" ""
       = transcript
       ∧ get (BlogPostGenerator_sanitize request_json) "12.Topic Name" "" = topic).
Proof.
  intros ([k1 v1] & Hk1 & Hin1)%list_elem_of_fmap ([k2 v2] & Hk2 & Hin2)%list_elem_of_fmap.
  simpl in Hk1, Hk2. subst k1 k2.
  split; [|split].
  - apply (sanitize_loop_is_Some BlogPostGenerator_new_key _ _ _ Hin1).
  - apply (sanitize_loop_is_Some BlogPostGenerator_new_key _ _ _ Hin2).
  - intros Hnodup transcript topic Ht Hp.
    pose proof (sanitize_loop_no_collision BlogPostGenerator_new_key _ _ _ Hnodup Ht)
      as Htranscript.
    pose proof (sanitize_loop_no_collision BlogPostGenerator_new_key _ _ _ Hnodup Hp)
      as Htopic.
    change (BlogPostGenerator_new_key "2.AI Transcript Rough")
      with "2.AI Transcript Rough" in Htranscript.
    change (BlogPostGenerator_new_key "12.Topic Name")
      with "12.Topic Name" in Htopic.
    unfold get, BlogPostGenerator_sanitize. by rewrite Htranscript, Htopic.
Qed.

Lemma sanitize_loop_fixpoint (new_key : string → string)
    (request_data items : list (string * string)) :
  (∀ key, new_key (new_key key) = new_key key) →
  items ≡ₚ map_to_list (sanitize_loop new_key request_data) →
  sanitize_loop new_key items = sanitize_loop new_key request_data.
Proof.
  intros Hidem Hitems.
  set (m := sanitize_loop new_key request_data) in *.
  assert (Forall (λ kv, new_key kv.1 = kv.1) (map_to_list m)) as Hclean.
  { apply Forall_forall. intros [key value] Hin%elem_of_map_to_list.
    apply sanitize_loop_lookup_Some in Hin as (key0 & _ & <-). apply Hidem. }
  assert (new_key <$> (map_to_list m).*1 = (map_to_list m).*1) as Hkeys.
  { revert Hclean. generalize (map_to_list m). intros l Hclean.
    induction Hclean as [|[k v] l Hk _ IH]; [done|].
    cbn [fmap list_fmap fst] in *. simpl in Hk. by rewrite Hk, IH. }
  rewrite (sanitize_loop_Permutation new_key (map_to_list m) items).
  - rewrite sanitize_loop_copy.
    + apply list_to_map_to_list.
    + exact Hclean.
    + apply NoDup_fst_map_to_list.
  - rewrite Hkeys. apply NoDup_fst_map_to_list.
  - done.
Qed.

(** X15.  Sanitizing is idempotent on whole requests too: running either
    loop over the items of a dictionary it produced, in any order, gives
    that dictionary back. *)
Theorem sanitize_dictionary_idempotent
    (request_data items : list (string * string)) :
  (items ≡ₚ map_to_list (PostGenerator_sanitize request_data) →
   PostGenerator_sanitize items = PostGenerator_sanitize request_data)
  ∧ (items ≡ₚ map_to_list (BlogPostGenerator_sanitize request_data) →
     BlogPostGenerator_sanitize items = BlogPostGenerator_sanitize request_data).
Proof.
  split; apply sanitize_loop_fixpoint; intros key.
  - destruct (PostGenerator_new_key_clean key) as [Ha Hd].
    by apply PostGenerator_new_key_id.
  - destruct (BlogPostGenerator_new_key_clean key) as (Ha & Hd & Hb).
    by apply BlogPostGenerator_new_key_id.
Qed.

(** ** Witnesses of the further properties *)

Lemma blog_result_within_bounds_witness :
  match (BlogPostGenerator (Settings.defaults "sk-proj-1234") (λ _, sample_client)
           sample_request []).1 with
  | inr result =>
      ∃ title contentBody hashtags,
        result = JObj [ ("title", JStr title);
                        ("contentBody", JStr contentBody);
                        ("hashtags", JList (JStr <$> hashtags)) ]
        ∧ String.length title ≤ 120
        ∧ 2800 ≤ String.length contentBody ≤ 4000
        ∧ 3 ≤ length hashtags ≤ 5
  | inl e =>
      ∃ p, Params.messages p = BlogPostGenerator_messages sample_request
           ∧ sample_client p [] = inl e
  end.
Proof.
  apply (blog_result_within_bounds (Settings.defaults "sk-proj-1234")
           (λ _, sample_client) sample_client_conforms sample_request []).
Defined.


Lemma endpoints_ok_payload_witness :
  (∃ title body_ hashtags,
     JObj [ ("title", JStr "Adapting to evolving B2B buyer behavior");
            ("body", JStr (str_repeat "a" 500));
            ("hashtags", JList [JStr "#b2b"; JStr "#buyers"; JStr "#GrowthMatch"]) ]
     = JObj [ ("title", JStr title);
              ("body", JStr body_);
              ("hashtags", JList (JStr <$> hashtags)) ]
     ∧ String.length title ≤ 70
     ∧ 500 ≤ String.length body_ ≤ 2100
     ∧ length hashtags = 3)
  ∧ (∃ title contentBody hashtags,
       JObj [ ("title", JStr "Adapting to Evolving B2B Buyer Behavior");
              ("contentBody", JStr (str_repeat "a" 2800));
              ("hashtags", JList [JStr "#b2b"; JStr "#buyers"; JStr "#GrowthMatch"]) ]
       = JObj [ ("title", JStr title);
                ("contentBody", JStr contentBody);
                ("hashtags", JList (JStr <$> hashtags)) ]
       ∧ String.length title ≤ 120
       ∧ 2800 ≤ String.length contentBody ≤ 4000
       ∧ 3 ≤ length hashtags ≤ 5).
Proof.
  split.
  - apply (proj1 (endpoints_ok_payload (Settings.defaults "sk-proj-1234")
                    (λ _, sample_client) sample_client_conforms sample_request []
                    {| body := JObj [ ("title", JStr "Adapting to evolving B2B buyer behavior");
                                      ("body", JStr (str_repeat "a" 500));
                                      ("hashtags",
                                        JList [JStr "#b2b"; JStr "#buyers";
                                               JStr "#GrowthMatch"]) ];
                       status := 200 |}));
      [vm_compute; reflexivity | reflexivity].
  - apply (proj2 (endpoints_ok_payload (Settings.defaults "sk-proj-1234")
                    (λ _, sample_client) sample_client_conforms sample_request []
                    {| body := JObj [ ("title", JStr "Adapting to Evolving B2B Buyer Behavior");
                                      ("contentBody", JStr (str_repeat "a" 2800));
                                      ("hashtags",
                                        JList [JStr "#b2b"; JStr "#buyers";
                                               JStr "#GrowthMatch"]) ];
                       status := 200 |}));
      [vm_compute; reflexivity | reflexivity].
Defined.

Lemma LLMFactory_init_supported_witness :
  LLMFactory_init (Settings.defaults "sk-proj-1234") (λ _, sample_client) "openai" []
  = (inr {| provider := "openai";
            settings := OpenAISettings.defaults "sk-proj-1234";
            client := sample_client |}, [])
  ∧ ∃ e, LLMFactory_init (Settings.defaults "sk-proj-1234") (λ _, sample_client)
           "anthropic" [] = (inl e, []).
Proof.
  split.
  - apply (proj1 (LLMFactory_init_supported (Settings.defaults "sk-proj-1234")
                    (λ _, sample_client) "openai" [])). reflexivity.
  - apply (proj2 (LLMFactory_init_supported (Settings.defaults "sk-proj-1234")
                    (λ _, sample_client) "anthropic" [])). discriminate.
Defined.


Lemma sanitize_without_collisions_witness :
  PostGenerator_sanitize [("6.'Name'", "Acme"); ("12.Topic Name", "Growth")] !! "6.Name"
  = Some "Acme"
  ∧ size (PostGenerator_sanitize [("6.'Name'", "Acme"); ("12.Topic Name", "Growth")]) = 2
  ∧ BlogPostGenerator_sanitize [("6.`Name`", "Acme"); ("12.Topic Name", "Growth")]
      !! "6.Name" = Some "Acme".
Proof.
  destruct (sanitize_without_collisions
              [("6.'Name'", "Acme"); ("12.Topic Name", "Growth")]) as [Hpost _].
  destruct (sanitize_without_collisions
              [("6.`Name`", "Acme"); ("12.Topic Name", "Growth")]) as [_ Hblog].
  destruct Hpost as [Hp1 Hp2].
  { apply (bool_decide_unpack _). vm_compute. exact I. }
  destruct Hblog as [Hb1 _].
  { apply (bool_decide_unpack _). vm_compute. exact I. }
  split; [|split].
  - apply (Hp1 "6.'Name'" "Acme"). apply list_elem_of_here.
  - exact Hp2.
  - apply (Hb1 "6.`Name`" "Acme"). apply list_elem_of_here.
Defined.

Lemma sanitize_clean_request_witness :
  PostGenerator_sanitize sample_request = list_to_map sample_request
  ∧ BlogPostGenerator_sanitize sample_request = list_to_map sample_request.
Proof.
  destruct (sanitize_clean_request sample_request) as [Hpost Hblog].
  split.
  - apply Hpost.
    + apply (bool_decide_unpack _). vm_compute. exact I.
    + repeat constructor.
  - apply Hblog.
    + apply (bool_decide_unpack _). vm_compute. exact I.
    + repeat constructor.
Defined.

Lemma messages_order_independent_witness :
  PostGenerator_messages [("12.Topic Name", "Growth");
                          ("2.AI Transcript Rough", "We discussed Q3 growth.")]
  = PostGenerator_messages sample_request
  ∧ BlogPostGenerator_messages [("12.Topic Name", "Growth");
                                ("2.AI Transcript Rough", "We discussed Q3 growth.")]
    = BlogPostGenerator_messages sample_request.
Proof.
  destruct (messages_order_independent sample_request
              [("12.Topic Name", "Growth");
               ("2.AI Transcript Rough", "We discussed Q3 growth.")])
    as [Hpost Hblog]; [apply perm_swap|].
  split.
  - apply Hpost. apply (bool_decide_unpack _). vm_compute. exact I.
  - apply Hblog. apply (bool_decide_unpack _). vm_compute. exact I.
Defined.

Lemma unknown_keys_ignored_witness :
  PostGenerator_messages (sample_request ++ [("7.Long Form Writing Style Guide", "Formal")])
  = PostGenerator_messages sample_request
  ∧ BlogPostGenerator_messages (sample_request ++ [("7.Key 'Messages'", "Be bold")])
    = BlogPostGenerator_messages sample_request.
Proof.
  split.
  - apply (proj1 (unknown_keys_ignored sample_request
                    "7.Long Form Writing Style Guide" "Formal")).
    apply (bool_decide_eq_false_1 _). vm_compute. reflexivity.
  - apply (proj2 (unknown_keys_ignored sample_request "7.Key 'Messages'" "Be bold")).
    apply (bool_decide_eq_false_1 _). vm_compute. reflexivity.
Defined.

Lemma validated_request_fills_slots_witness :
  get (BlogPostGenerator_sanitize sample_request) "2.AI Transcript Rough" ""
  = "We discussed Q3 growth."
  ∧ get (BlogPostGenerator_sanitize sample_request) "12.Topic Name" "" = "Growth".
Proof.
  destruct (validated_request_fills_slots sample_request) as (_ & _ & Hslots).
  - apply (bool_decide_unpack _). vm_compute. exact I.
  - apply (bool_decide_unpack _). vm_compute. exact I.
  - apply Hslots.
    + apply (bool_decide_unpack _). vm_compute. exact I.
    + apply list_elem_of_here.
    + apply list_elem_of_further, list_elem_of_here.
Defined.

Lemma sanitize_dictionary_idempotent_witness :
  PostGenerator_sanitize [("12.Topic Name", "Growth"); ("6.Name", "Acme")]
  = PostGenerator_sanitize [("6.'Name'", "Acme"); ("12.Topic Name", "Growth")]
  ∧ BlogPostGenerator_sanitize [("12.Topic Name", "Growth"); ("6.Name", "Acme")]
    = BlogPostGenerator_sanitize [("6.`Name`", "Acme"); ("12.Topic Name", "Growth")].
Proof.
  split.
  - apply (proj1 (sanitize_dictionary_idempotent
                    [("6.'Name'", "Acme"); ("12.Topic Name", "Growth")]
                    [("12.Topic Name", "Growth"); ("6.Name", "Acme")])).
    apply (bool_decide_unpack _). vm_compute. exact I.
  - apply (proj2 (sanitize_dictionary_idempotent
                    [("6.`Name`", "Acme"); ("12.Topic Name", "Growth")]
                    [("12.Topic Name", "Growth"); ("6.Name", "Acme")])).
    apply (bool_decide_unpack _). vm_compute. exact I.
Defined.
